(** * perfkitbenchmarker/timed_interval.py: a measured interval that
      generates timing samples.

    The Python class [TimedInterval] keeps a name and two optional
    timestamps.  [Measure] is a generator wrapped by
    [contextlib.contextmanager]: it reads the clock, yields to the
    enclosed block, and reads the clock again.  [GenerateSamples] turns
    the two timestamps into a list of [sample.Sample] records.

    The embedding is a state-and-exception monad over a world made of
    the host clock and the instance; the generator is cut at its
    [yield] into the part run by [__enter__] and the part run by
    [__exit__]. *)

From Stdlib Require Import String List Bool Arith Lia PrimFloat.
From Stdlib Require Import ZArith.
Import ListNotations.
Open Scope string_scope.
Open Scope list_scope.

Set Implicit Arguments.

(** ** Timestamps *)

(** [time.time()] returns a Python float.  Only two things are ever done
    with a timestamp: [stop - start], and comparing two readings of the
    clock.  The development is parametric in the carrier, so no
    property of rounding is assumed anywhere. *)
Class Timestamp (num : Type) := {
  t_sub : num -> num -> num;
  t_le : num -> num -> Prop
}.

(** IEEE 754 binary64, the representation of a Python float. *)
#[global] Instance float_Timestamp : Timestamp float := {
  t_sub := PrimFloat.sub;
  t_le := fun a b => PrimFloat.leb a b = true
}.

(** ** Exceptions and results *)

(** [TypeError] is what [float - None] raises; [BlockError] stands for
    whatever the block enclosed by [Measure] may raise. *)
Inductive exception : Type :=
| TypeError
| BlockError (code : nat).

Inductive result (A : Type) : Type :=
| Ok (a : A)
| Raise (e : exception).

Arguments Ok {A} a.
Arguments Raise {A} e.

Section TimedInterval.

Context {num : Type} {T : Timestamp num}.

(** ** Data *)

(** The three attributes assigned by [__init__]; [None] is Python's
    [None]. *)
Record TimedInterval : Type := mkTimedInterval {
  _name : string;
  _start_time : option num;
  _stop_time : option num
}.

(** Modelled from the spec: [sample.Sample] is imported from a module
    that is not part of the sources at hand; the spec describes a
    measurement record as a triple of label, value and unit. *)
Record sample : Type := Sample {
  s_label : string;
  s_value : num;
  s_unit : string
}.

(** The part of the world the code can see: what the host clock reads
    now, and the instance the methods are called on. *)
Record World : Type := mkWorld {
  now : num;
  self : TimedInterval
}.

(** ** The monad: state passing, with exceptions that keep the state *)

Definition M (A : Type) : Type := World -> result A * World.

Definition ret {A} (a : A) : M A := fun w => (Ok a, w).

Definition raise {A} (e : exception) : M A := fun w => (Raise e, w).

Definition bind {A B} (c : M A) (k : A -> M B) : M B :=
  fun w =>
    match c w with
    | (Ok a, w1) => k a w1
    | (Raise e, w1) => (Raise e, w1)
    end.

Notation "x <- c ;; k" := (bind c (fun x => k))
  (at level 61, c at next level, right associativity).
Notation "c ;; k" := (bind c (fun _ => k))
  (at level 61, right associativity).

(** [time.time()] *)
Definition time_time : M num := fun w => (Ok (now w), w).

Definition get_self : M TimedInterval := fun w => (Ok (self w), w).

(** [self._start_time = v] *)
Definition set_start_time (v : option num) : M unit :=
  fun w =>
    (Ok tt,
     {| now := now w;
        self := {| _name := _name (self w);
                   _start_time := v;
                   _stop_time := _stop_time (self w) |} |}).

(** [self._stop_time = v] *)
Definition set_stop_time (v : option num) : M unit :=
  fun w =>
    (Ok tt,
     {| now := now w;
        self := {| _name := _name (self w);
                   _start_time := _start_time (self w);
                   _stop_time := v |} |}).

(** ** [TimedInterval.__init__] *)

Definition __init__ (name : string) : TimedInterval :=
  {| _name := name; _start_time := None; _stop_time := None |}.

(** ** The read-only properties *)

Definition name (ti : TimedInterval) : string := _name ti.
Definition start_time (ti : TimedInterval) : option num := _start_time ti.
Definition stop_time (ti : TimedInterval) : option num := _stop_time ti.

(** ** [TimedInterval.Measure] *)

(** The generator up to its [yield]: what [__enter__] runs. *)
Definition Measure_enter : M unit :=
  t <- time_time ;;
  set_start_time (Some t).

(** The generator after its [yield]: what [__exit__] runs when the
    block ended without an exception. *)
Definition Measure_exit : M unit :=
  t <- time_time ;;
  set_stop_time (Some t).

(** The generator when [__exit__] throws [e] into it at the [yield]:
    no [try] encloses the [yield], so [e] leaves the generator at once
    and nothing after the [yield] runs. *)
Definition Measure_throw {A} (e : exception) : M A := raise e.

(** [with self.Measure(): block], by the protocol of
    [contextlib.contextmanager]: [__enter__] runs the generator up to
    the [yield]; then the block runs; [__exit__] resumes the generator
    when the block ended normally and throws the block's exception into
    it otherwise, letting the same exception continue to the caller
    when it comes back out. *)
Definition Measure {A} (block : M A) : M A :=
  fun w =>
    match Measure_enter w with
    | (Raise e, w1) => (Raise e, w1)
    | (Ok _, w1) =>
        match block w1 with
        | (Ok a, w2) =>
            match Measure_exit w2 with
            | (Ok _, w3) => (Ok a, w3)
            | (Raise e, w3) => (Raise e, w3)
            end
        | (Raise e, w2) => Measure_throw e w2
        end
    end.

(** ** [TimedInterval.GenerateSamples] *)

Definition GenerateSamples (include_timestamps : bool) : M (list sample) :=
  ti <- get_self ;;
  let samples := [] in
  match _stop_time ti with
  | None => ret samples
  | Some stop =>
      match _start_time ti with
      | None => raise TypeError
      | Some start =>
          let elapsed_time := t_sub stop start in
          let samples :=
            samples ++ [Sample (_name ti ++ " Runtime") elapsed_time "seconds"] in
          if include_timestamps then
            let samples :=
              samples ++ [Sample (_name ti ++ " Start Timestamp") start "seconds"] in
            let samples :=
              samples ++ [Sample (_name ti ++ " Stop Timestamp") stop "seconds"] in
            ret samples
          else ret samples
      end
  end.

(** ** Blocks used in examples *)

(** A block that only takes time: when it ends the clock reads [t]. *)
Definition elapse (t : num) : M unit :=
  fun w => (Ok tt, {| now := t; self := self w |}).

(** A block that runs until the clock reads [t] and then raises [e]. *)
Definition elapse_then_raise (t : num) (e : exception) : M unit :=
  elapse t ;; raise e.

(** ** Histories of use *)

(** What can happen to an instance, one step at a time.  A block is
    opaque, so entering and leaving a [with self.Measure():] are
    separate events, and whatever happens in between is a history of
    its own (time passing, reads, nested scopes). *)
Inductive event : Type :=
| Elapse (t : num)
| Enter
| ExitNormal
| ExitRaise (e : exception)
| Generate (include_timestamps : bool).

(** Bookkeeping that the Python object does not hold: how many scopes
    are open, how many ended normally so far, and whether the last one
    to end did so normally. *)
Record Usage : Type := mkUsage {
  open_scopes : nat;
  completed : nat;
  last_exit : option bool
}.

Definition step (c : World * Usage) (ev : event) : option (World * Usage) :=
  let (w, u) := c in
  match ev with
  | Elapse t => Some ({| now := t; self := self w |}, u)
  | Enter =>
      Some (snd (Measure_enter w),
            {| open_scopes := S (open_scopes u);
               completed := completed u;
               last_exit := last_exit u |})
  | ExitNormal =>
      match open_scopes u with
      | O => None
      | S n =>
          Some (snd (Measure_exit w),
                {| open_scopes := n;
                   completed := S (completed u);
                   last_exit := Some true |})
      end
  | ExitRaise e =>
      match open_scopes u with
      | O => None
      | S n =>
          Some (snd (Measure_throw (A := unit) e w),
                {| open_scopes := n;
                   completed := completed u;
                   last_exit := Some false |})
      end
  | Generate b => Some (snd (GenerateSamples b w), u)
  end.

(** [None] when the history leaves a scope that was never entered. *)
Fixpoint run (tr : list event) (c : World * Usage) : option (World * Usage) :=
  match tr with
  | [] => Some c
  | ev :: tr' =>
      match step c ev with
      | Some c' => run tr' c'
      | None => None
      end
  end.

(** A newly constructed instance, the clock reading [t0]. *)
Definition fresh (n : string) (t0 : num) : World * Usage :=
  ({| now := t0; self := __init__ n |},
   {| open_scopes := 0; completed := 0; last_exit := None |}).

(** The states of the informal state machine, read off the
    bookkeeping: [Measuring] while a scope is open; otherwise
    [Measured] when the last scope to end did so normally, and
    [Unmeasured] when no scope has ended normally yet.  [Interrupted]
    is not one of the machine's three: it is where an instance is when
    its last scope was left by an exception after an earlier one had
    ended normally. *)
Inductive Phase : Type :=
| Unmeasured
| Measuring
| Measured
| Interrupted.

Definition phase (u : Usage) : Phase :=
  match open_scopes u with
  | S _ => Measuring
  | O =>
      match last_exit u with
      | Some true => Measured
      | Some false =>
          match completed u with
          | O => Unmeasured
          | S _ => Interrupted
          end
      | None => Unmeasured
      end
  end.

(** What holds of every instance, whatever was done with it. *)
Definition usage_inv (c : World * Usage) : Prop :=
  let (w, u) := c in
  (_stop_time (self w) <> None <-> 0 < completed u) /\
  (0 < open_scopes u \/ 0 < completed u -> _start_time (self w) <> None) /\
  (last_exit u = Some true -> 0 < completed u) /\
  (last_exit u = None -> completed u = 0).

End TimedInterval.

Arguments TimedInterval num : clear implicits.
Arguments sample num : clear implicits.
Arguments World num : clear implicits.
Arguments event num : clear implicits.

(** ** A concrete run: name "Disk", clock readings as Python floats *)

Definition disk_new : World float :=
  {| now := 100%float; self := __init__ "Disk" |}.

(** After one bracket from 100.0 to 102.5. *)
Definition disk_measured : World float :=
  {| now := 102.5%float;
     self := {| _name := "Disk";
                _start_time := Some 100%float;
                _stop_time := Some 102.5%float |} |}.

(** The same instance later, the clock reading 200.0. *)
Definition disk_later : World float :=
  {| now := 200%float; self := self disk_measured |}.

(** A block that fails when the clock reads 205.0. *)
Definition disk_failing_block : M (num := float) unit :=
  elapse_then_raise 205%float (BlockError 7).

(** One bracket from 100.0 to 102.5, then the scope is entered again
    at 200.0 and is still open. *)
Definition disk_reentered_history : list (event float) :=
  [Enter; Elapse 102.5%float; ExitNormal; Elapse 200%float; Enter].

Definition disk_reentered : World float :=
  {| now := 200%float;
     self := {| _name := "Disk";
                _start_time := Some 200%float;
                _stop_time := Some 102.5%float |} |}.

Definition disk_reentered_usage : Usage :=
  {| open_scopes := 1; completed := 1; last_exit := Some true |}.

(** ** Histories under a clock that does not go back *)

Section Clock.

Context {num : Type} {T : Timestamp num}.

(** Each reading the history brings is not before the one it
    replaces; [cur] is what the clock reads when the history starts. *)
Fixpoint clock_monotone (cur : num) (tr : list (event num)) : Prop :=
  match tr with
  | [] => True
  | Elapse t :: tr' => t_le cur t /\ clock_monotone t tr'
  | _ :: tr' => clock_monotone cur tr'
  end.

(** What such a history keeps: no timestamp is later than the clock,
    and a measured instance has its start not after its stop. *)
Definition clock_inv (c : World num * Usage) : Prop :=
  let (w, u) := c in
  (forall s, _start_time (self w) = Some s -> t_le s (now w)) /\
  (forall p, _stop_time (self w) = Some p -> t_le p (now w)) /\
  (phase u = Measured ->
   forall s p,
     _start_time (self w) = Some s -> _stop_time (self w) = Some p ->
     t_le s p).

End Clock.

(** A clock that counts whole seconds. *)
Definition Z_Timestamp : Timestamp Z :=
  {| t_sub := Z.sub; t_le := Z.le |}.

(** One bracket on that clock, entered at 3 and left at 5. *)
Definition disk_whole_seconds_history : list (event Z) :=
  [Enter; Elapse 5%Z; ExitNormal].

(** An instance whose private fields were written from outside:
    a stop without a start. *)
Definition disk_stop_without_start : World float :=
  {| now := 102.5%float;
     self := {| _name := "Disk";
                _start_time := None;
                _stop_time := Some 102.5%float |} |}.

(** * Properties *)

Section Properties.

Context {num : Type} {T : Timestamp num}.

Local Notation "x <- c ;; k" := (bind c (fun x => k))
  (at level 61, c at next level, right associativity).
Local Notation "c ;; k" := (bind c (fun _ => k))
  (at level 61, right associativity).

Implicit Types (w : World num) (b : bool) (e : exception).

(** ** The two halves of the generator *)

Lemma Measure_enter_eq w :
  Measure_enter w
  = (Ok tt,
     {| now := now w;
        self := {| _name := _name (self w);
                   _start_time := Some (now w);
                   _stop_time := _stop_time (self w) |} |}).
Proof. reflexivity. Qed.

Lemma Measure_exit_eq w :
  Measure_exit w
  = (Ok tt,
     {| now := now w;
        self := {| _name := _name (self w);
                   _start_time := _start_time (self w);
                   _stop_time := Some (now w) |} |}).
Proof. reflexivity. Qed.

(** The [with] statement when the block ends normally: the generator is
    resumed and its second half runs in the world the block left. *)
Lemma Measure_block_ok w (A : Type) (block : M A) (a : A) w2 :
  block (snd (Measure_enter w)) = (Ok a, w2) ->
  Measure block w = (Ok a, snd (Measure_exit w2)).
Proof.
  intros Hblock. unfold Measure.
  rewrite Measure_enter_eq in *. cbn [snd] in Hblock.
  rewrite Hblock, Measure_exit_eq. reflexivity.
Qed.

(** The [with] statement when the block raises: the world is the one
    the block left, and the exception is the block's. *)
Lemma Measure_block_raise w (A : Type) (block : M A) e w2 :
  block (snd (Measure_enter w)) = (Raise e, w2) ->
  Measure block w = (Raise e, w2).
Proof.
  intros Hblock. unfold Measure.
  rewrite Measure_enter_eq in *. cbn [snd] in Hblock.
  rewrite Hblock. reflexivity.
Qed.

(** ** What [GenerateSamples] returns, by cases on the two timestamps *)

Lemma GenerateSamples_unset w b :
  _stop_time (self w) = None ->
  GenerateSamples b w = (Ok [], w).
Proof.
  intros Hstop. unfold GenerateSamples, bind, get_self.
  rewrite Hstop. reflexivity.
Qed.

Lemma GenerateSamples_set w b (start stop : num) :
  _start_time (self w) = Some start ->
  _stop_time (self w) = Some stop ->
  GenerateSamples b w
  = (Ok (Sample (_name (self w) ++ " Runtime") (t_sub stop start) "seconds"
         :: if b
            then [Sample (_name (self w) ++ " Start Timestamp") start "seconds";
                  Sample (_name (self w) ++ " Stop Timestamp") stop "seconds"]
            else []),
     w).
Proof.
  intros Hstart Hstop. unfold GenerateSamples, bind, get_self.
  rewrite Hstop, Hstart. destruct b; reflexivity.
Qed.

Lemma GenerateSamples_no_start w b (stop : num) :
  _start_time (self w) = None ->
  _stop_time (self w) = Some stop ->
  GenerateSamples b w = (Raise TypeError, w).
Proof.
  intros Hstart Hstop. unfold GenerateSamples, bind, get_self.
  rewrite Hstop, Hstart. reflexivity.
Qed.

(** [GenerateSamples] writes nothing, whatever it returns. *)
Lemma GenerateSamples_world w b : snd (GenerateSamples b w) = w.
Proof.
  destruct (_stop_time (self w)) as [stop|] eqn:Hstop.
  - destruct (_start_time (self w)) as [start|] eqn:Hstart.
    + rewrite (GenerateSamples_set _ _ Hstart Hstop). reflexivity.
    + rewrite (GenerateSamples_no_start _ _ Hstart Hstop). reflexivity.
  - rewrite (GenerateSamples_unset _ _ Hstop). reflexivity.
Qed.

(** ** Construction *)

(** C8: for every name, a freshly constructed TimedInterval has unset
    start_time and stop_time, its name accessor returns the name given
    at construction, and GenerateSamples returns the empty list for
    either value of the flag (the clock reading whatever it reads). *)
Theorem init_unset_and_no_samples (n : string) (t : num) b :
  start_time (__init__ (num := num) n) = None /\
  stop_time (__init__ (num := num) n) = None /\
  name (__init__ (num := num) n) = n /\
  fst (GenerateSamples b {| now := t; self := __init__ n |}) = Ok [].
Proof.
  unfold start_time, stop_time, name, __init__. cbn [_start_time _stop_time _name].
  do 3 (split; [reflexivity|]).
  rewrite GenerateSamples_unset; reflexivity.
Qed.

(** ** Reading *)

(** C9: in every state, GenerateSamples leaves name, start_time and
    stop_time as they were (the whole world is as it was), and a second
    call with the same flag returns what the first returned. *)
Theorem GenerateSamples_reads_only w b :
  name (self (snd (GenerateSamples b w))) = name (self w) /\
  start_time (self (snd (GenerateSamples b w))) = start_time (self w) /\
  stop_time (self (snd (GenerateSamples b w))) = stop_time (self w) /\
  snd (GenerateSamples b w) = w /\
  (r1 <- GenerateSamples b ;; r2 <- GenerateSamples b ;; ret (r1, r2)) w
  = (r <- GenerateSamples b ;; ret (r, r)) w.
Proof.
  pose proof (GenerateSamples_world w b) as Hw.
  rewrite Hw. do 4 (split; [reflexivity|]).
  unfold bind at 1 3.
  destruct (GenerateSamples b w) as [[l|e] w'] eqn:Hgen; cbn [snd] in Hw; subst w'.
  - unfold bind. rewrite Hgen. reflexivity.
  - reflexivity.
Qed.

(** ** One bracket *)

(** C5: when [with self.Measure(): block] ends normally (the block
    leaving the instance alone, and the clock not reading less after
    the block than before it), start_time <= stop_time, and
    GenerateSamples(False) returns exactly one record: label
    "<name> Runtime", value stop_time - start_time, unit "seconds". *)
Theorem Measure_then_runtime_sample w (A : Type) (block : M A) (a : A) w2 :
  block (snd (Measure_enter w)) = (Ok a, w2) ->
  self w2 = self (snd (Measure_enter w)) ->
  t_le (now w) (now w2) ->
  fst (Measure block w) = Ok a /\
  exists start stop : num,
    start_time (self (snd (Measure block w))) = Some start /\
    stop_time (self (snd (Measure block w))) = Some stop /\
    start = now w /\ stop = now w2 /\
    t_le start stop /\
    fst (GenerateSamples false (snd (Measure block w)))
    = Ok [Sample (name (self w) ++ " Runtime") (t_sub stop start) "seconds"].
Proof.
  intros Hblock Hframe Hclock.
  rewrite (Measure_block_ok _ _ Hblock), Measure_exit_eq. cbn [fst snd].
  split; [reflexivity|].
  exists (now w), (now w2).
  unfold start_time, stop_time, name. cbn [self _start_time _stop_time].
  rewrite Hframe, Measure_enter_eq. cbn [snd self _start_time].
  do 4 (split; [reflexivity|]).
  split; [exact Hclock|].
  erewrite GenerateSamples_set; [reflexivity| reflexivity | reflexivity].
Qed.

(** C6: when [with self.Measure(): block] ends normally (the block
    leaving the instance alone), GenerateSamples(True) returns exactly
    three records, in this order: "<name> Runtime" with the elapsed
    time, "<name> Start Timestamp" with start_time, "<name> Stop
    Timestamp" with stop_time, each with unit "seconds". *)
Theorem Measure_then_three_samples w (A : Type) (block : M A) (a : A) w2 :
  block (snd (Measure_enter w)) = (Ok a, w2) ->
  self w2 = self (snd (Measure_enter w)) ->
  fst (Measure block w) = Ok a /\
  exists start stop : num,
    start_time (self (snd (Measure block w))) = Some start /\
    stop_time (self (snd (Measure block w))) = Some stop /\
    fst (GenerateSamples true (snd (Measure block w)))
    = Ok [Sample (name (self w) ++ " Runtime") (t_sub stop start) "seconds";
          Sample (name (self w) ++ " Start Timestamp") start "seconds";
          Sample (name (self w) ++ " Stop Timestamp") stop "seconds"].
Proof.
  intros Hblock Hframe.
  rewrite (Measure_block_ok _ _ Hblock), Measure_exit_eq. cbn [fst snd].
  split; [reflexivity|].
  exists (now w), (now w2).
  unfold start_time, stop_time, name. cbn [self _start_time _stop_time].
  rewrite Hframe, Measure_enter_eq. cbn [snd self _start_time].
  do 2 (split; [reflexivity|]).
  erewrite GenerateSamples_set; [reflexivity| reflexivity | reflexivity].
Qed.

(** ** A block that raises *)

(** C1, as the code has it: when the block raises, the same exception
    reaches the caller and nothing is written after the block; the
    world is the one the block left.  If the block left the instance
    alone, start_time is the reading taken on entry and stop_time is
    what it was before the [with] statement: it is not set to a reading
    taken after the block. *)
Theorem Measure_raise_propagates_without_stop w (A : Type) (block : M A) e w2 :
  block (snd (Measure_enter w)) = (Raise e, w2) ->
  Measure block w = (Raise e, w2) /\
  (self w2 = self (snd (Measure_enter w)) ->
   start_time (self (snd (Measure block w))) = Some (now w) /\
   stop_time (self (snd (Measure block w))) = stop_time (self w)).
Proof.
  intros Hblock.
  pose proof (Measure_block_raise _ _ Hblock) as Hwith.
  split; [exact Hwith|].
  intros Hframe. rewrite Hwith. cbn [snd].
  rewrite Hframe, Measure_enter_eq. split; reflexivity.
Qed.

(** After a block that raised and left the instance alone: the new
    start_time next to the stop_time of before, and the samples
    computed from the two. *)
Lemma Measure_raise_stale w (A : Type) (block : M A) e w2 :
  block (snd (Measure_enter w)) = (Raise e, w2) ->
  self w2 = self (snd (Measure_enter w)) ->
  fst (Measure block w) = Raise e /\
  start_time (self (snd (Measure block w))) = Some (now w) /\
  stop_time (self (snd (Measure block w))) = stop_time (self w) /\
  forall (old_stop : num) b,
    stop_time (self w) = Some old_stop ->
    fst (GenerateSamples b (snd (Measure block w)))
    = Ok (Sample (name (self w) ++ " Runtime") (t_sub old_stop (now w)) "seconds"
          :: if b
             then [Sample (name (self w) ++ " Start Timestamp") (now w) "seconds";
                   Sample (name (self w) ++ " Stop Timestamp") old_stop "seconds"]
             else []).
Proof.
  intros Hblock Hframe.
  rewrite (Measure_block_raise _ _ Hblock). cbn [fst snd].
  unfold start_time, stop_time, name.
  rewrite Hframe, Measure_enter_eq. cbn [snd self _start_time _stop_time].
  do 3 (split; [reflexivity|]).
  intros old_stop b Hold.
  erewrite GenerateSamples_set.
  - cbn [fst]. rewrite Hframe. reflexivity.
  - rewrite Hframe. reflexivity.
  - rewrite Hframe. exact Hold.
Qed.

(** ** A second bracket *)

(** C3, as the code has it: on an instance that was measured before
    (first bracket, block1), when a second [with self.Measure(): block2]
    ends normally, both timestamps are those of the second bracket and
    GenerateSamples, for either flag, is computed from these two alone.
    [later] is the world in which the second bracket is entered: the
    instance as the first bracket left it, the clock reading anything. *)
Theorem Measure_again_overwrites_both
    w (A B : Type) (block1 : M A) (block2 : M B) (a1 : A) (a2 : B) w1 later w2 b :
  block1 (snd (Measure_enter w)) = (Ok a1, w1) ->
  self later = self (snd (Measure block1 w)) ->
  block2 (snd (Measure_enter later)) = (Ok a2, w2) ->
  self w2 = self (snd (Measure_enter later)) ->
  fst (Measure block2 later) = Ok a2 /\
  start_time (self (snd (Measure block2 later))) = Some (now later) /\
  stop_time (self (snd (Measure block2 later))) = Some (now w2) /\
  fst (GenerateSamples b (snd (Measure block2 later)))
  = Ok (Sample (name (self w1) ++ " Runtime") (t_sub (now w2) (now later)) "seconds"
        :: if b
           then [Sample (name (self w1) ++ " Start Timestamp") (now later) "seconds";
                 Sample (name (self w1) ++ " Stop Timestamp") (now w2) "seconds"]
           else []).
Proof.
  intros Hblock1 Hlater Hblock2 Hframe.
  rewrite (Measure_block_ok _ _ Hblock1), Measure_exit_eq in Hlater.
  cbn [snd self] in Hlater.
  rewrite (Measure_block_ok _ _ Hblock2), Measure_exit_eq. cbn [fst snd].
  unfold start_time, stop_time, name. cbn [self _start_time _stop_time].
  rewrite Hframe, Measure_enter_eq. cbn [snd self _start_time].
  do 3 (split; [reflexivity|]).
  assert (Hname : _name (self w1) = _name (self later))
    by (rewrite Hlater; reflexivity).
  rewrite Hname.
  erewrite GenerateSamples_set; reflexivity.
Qed.

(** ** Every history *)

Lemma usage_inv_fresh (n : string) (t0 : num) : usage_inv (fresh n t0).
Proof.
  unfold usage_inv, fresh, __init__. cbn.
  repeat split; try lia; congruence.
Qed.

Lemma usage_inv_step (c c' : World num * Usage) (ev : event num) :
  usage_inv c -> step c ev = Some c' -> usage_inv c'.
Proof.
  destruct c as [w u]. intros (Hstop & Hstart & Hlast & Hnone) Hstep.
  destruct ev as [t| | |e|b]; cbn [step] in Hstep.
  - (* Elapse *)
    injection Hstep as <-. cbn. tauto.
  - (* Enter *)
    injection Hstep as <-. cbn.
    repeat split; try tauto; congruence.
  - (* ExitNormal *)
    destruct (open_scopes u) as [|k] eqn:Hopen; [discriminate|].
    injection Hstep as <-. cbn.
    repeat split; try lia; try congruence.
    intros _. apply Hstart. left. lia.
  - (* ExitRaise *)
    destruct (open_scopes u) as [|k] eqn:Hopen; [discriminate|].
    injection Hstep as <-. cbn.
    repeat split; try tauto; try congruence.
    intros _. apply Hstart. left. lia.
  - (* Generate *)
    injection Hstep as <-. rewrite GenerateSamples_world. cbn. tauto.
Qed.

Lemma usage_inv_run (tr : list (event num)) :
  forall c c', usage_inv c -> run tr c = Some c' -> usage_inv c'.
Proof.
  induction tr as [|ev tr IH]; intros c c' Hinv Hrun; cbn [run] in Hrun.
  - injection Hrun as <-. exact Hinv.
  - destruct (step c ev) as [c1|] eqn:Hstep; [|discriminate].
    eapply IH; [|exact Hrun]. eapply usage_inv_step; eauto.
Qed.

Lemma usage_inv_reachable
    (n : string) (t0 : num) (tr : list (event num)) w (u : Usage) :
  run tr (fresh n t0) = Some (w, u) -> usage_inv (w, u).
Proof.
  intros Hrun. eapply usage_inv_run; [apply usage_inv_fresh | exact Hrun].
Qed.

(** In a state a history can reach, [GenerateSamples] returns a list,
    and the list is empty exactly when no scope has ended normally. *)
Lemma GenerateSamples_by_completed (w : World num) (u : Usage) b :
  usage_inv (w, u) ->
  (completed u = 0 /\ GenerateSamples b w = (Ok [], w)) \/
  (0 < completed u /\
   exists s l, GenerateSamples b w = (Ok (s :: l), w)).
Proof.
  intros (Hstop & Hstart & _ & _).
  destruct (_stop_time (self w)) as [stop|] eqn:Estop.
  - right. assert (Hdone : 0 < completed u) by (apply Hstop; congruence).
    split; [exact Hdone|].
    destruct (_start_time (self w)) as [start|] eqn:Estart.
    + rewrite (GenerateSamples_set _ _ Estart Estop). eauto.
    + exfalso. apply Hstart; [right; exact Hdone | reflexivity].
  - left. split.
    + destruct (completed u); [reflexivity|].
      exfalso. apply (proj2 Hstop); [lia | reflexivity].
    + apply GenerateSamples_unset. exact Estop.
Qed.

(** C4: after every sequence of operations on a new instance,
    stop_time is set if and only if a measured scope has ended normally
    at least once, and stop_time is never set while start_time is
    unset. *)
Theorem stop_time_set_iff_completed
    (n : string) (t0 : num) (tr : list (event num)) w (u : Usage) :
  run tr (fresh n t0) = Some (w, u) ->
  (stop_time (self w) <> None <-> 0 < completed u) /\
  (stop_time (self w) <> None -> start_time (self w) <> None).
Proof.
  intros Hrun.
  destruct (usage_inv_reachable _ _ _ Hrun) as (Hstop & Hstart & _ & _).
  unfold stop_time, start_time. split; [exact Hstop|].
  intros Hset. apply Hstart. right. apply Hstop. exact Hset.
Qed.

(** C2, as the code has it: after every sequence of entries and exits,
    GenerateSamples returns the empty list exactly when no scope has
    ended normally so far, and a non-empty list exactly when one has.
    So it is empty in Unmeasured and non-empty in Measured; in
    Measuring it is empty the first time and non-empty on every
    re-entry after a scope that ended normally. *)
Theorem GenerateSamples_empty_iff_none_completed
    (n : string) (t0 : num) (tr : list (event num)) w (u : Usage) b :
  run tr (fresh n t0) = Some (w, u) ->
  (fst (GenerateSamples b w) = Ok [] <-> completed u = 0) /\
  ((exists s l, fst (GenerateSamples b w) = Ok (s :: l)) <-> 0 < completed u) /\
  (phase u = Unmeasured -> fst (GenerateSamples b w) = Ok []) /\
  (phase u = Measured -> exists s l, fst (GenerateSamples b w) = Ok (s :: l)).
Proof.
  intros Hrun.
  pose proof (usage_inv_reachable _ _ _ Hrun) as Hinv.
  destruct Hinv as (Hstop & Hstart & Hlast & Hnone).
  assert (Hunm : phase u = Unmeasured -> completed u = 0).
  { unfold phase. destruct (open_scopes u); [|discriminate].
    destruct (last_exit u) as [[|]|]; [discriminate| |auto].
    destruct (completed u); [reflexivity|discriminate]. }
  assert (Hmea : phase u = Measured -> 0 < completed u).
  { unfold phase. destruct (open_scopes u); [|discriminate].
    destruct (last_exit u) as [[|]|]; [auto| |discriminate].
    destruct (completed u); discriminate. }
  destruct (GenerateSamples_by_completed b (conj Hstop (conj Hstart (conj Hlast Hnone))))
    as [(Hzero & Hgen) | (Hpos & s & l & Hgen)]; rewrite Hgen; cbn [fst].
  - split; [tauto|]. split.
    + split; [intros (s & l & Habs); discriminate | lia].
    + split; [reflexivity|]. intros Hm. apply Hmea in Hm. lia.
  - split; [split; [discriminate | lia]|]. split.
    + split; [auto | eauto].
    + split; [|eauto]. intros Hu. apply Hunm in Hu. lia.
Qed.

(** C7: whenever stop_time is unset, GenerateSamples returns the empty
    list for either flag; and in every state that a sequence of
    operations on a new instance reaches, GenerateSamples returns a
    list and raises nothing, for either flag. *)
Theorem GenerateSamples_never_raises w b :
  (stop_time (self w) = None -> GenerateSamples b w = (Ok [], w)) /\
  (forall (n : string) (t0 : num) (tr : list (event num)) (u : Usage),
      run tr (fresh n t0) = Some (w, u) ->
      exists l, GenerateSamples b w = (Ok l, w)).
Proof.
  split.
  - apply GenerateSamples_unset.
  - intros n t0 tr u Hrun.
    pose proof (usage_inv_reachable _ _ _ Hrun) as Hinv.
    destruct (GenerateSamples_by_completed b Hinv)
      as [(_ & Hgen) | (_ & s & l & Hgen)]; rewrite Hgen; eauto.
Qed.

(** ** The [with] statement and the histories agree *)

Lemma Measure_elapse_as_history w (u : Usage) (t : num) :
  run [Enter; Elapse t; ExitNormal] (w, u)
  = Some (snd (Measure (elapse t) w),
          {| open_scopes := open_scopes u;
             completed := S (completed u);
             last_exit := Some true |}).
Proof. reflexivity. Qed.

Lemma Measure_raise_as_history w (u : Usage) (t : num) e :
  run [Enter; Elapse t; ExitRaise e] (w, u)
  = Some (snd (Measure (elapse_then_raise t e) w),
          {| open_scopes := open_scopes u;
             completed := completed u;
             last_exit := Some false |}).
Proof. reflexivity. Qed.

End Properties.

(** * The run on "Disk" *)

Example disk_first_bracket :
  Measure (elapse 102.5%float) disk_new = (Ok tt, disk_measured).
Proof. reflexivity. Qed.

Example disk_runtime_only :
  fst (GenerateSamples false disk_measured)
  = Ok [Sample "Disk Runtime" 2.5%float "seconds"].
Proof. reflexivity. Qed.

Example disk_with_timestamps :
  fst (GenerateSamples true disk_measured)
  = Ok [Sample "Disk Runtime" 2.5%float "seconds";
        Sample "Disk Start Timestamp" 100%float "seconds";
        Sample "Disk Stop Timestamp" 102.5%float "seconds"].
Proof. reflexivity. Qed.

Example disk_reentered_run :
  run disk_reentered_history (fresh "Disk" 100%float)
  = Some (disk_reentered, disk_reentered_usage).
Proof. reflexivity. Qed.

(** ** Where the code departs from the specification *)

(** C1 as stated fails: a new instance, entered at 100.0, whose block
    raises at 102.5.  The exception reaches the caller, and stop_time
    is still unset: it is not the reading taken after the block. *)
Lemma Measure_raise_stop_time_unset :
  Measure (elapse_then_raise 102.5%float (BlockError 7)) disk_new
  = (Raise (BlockError 7),
     {| now := 102.5%float;
        self := {| _name := "Disk";
                   _start_time := Some 100%float;
                   _stop_time := None |} |}) /\
  stop_time
    (self (snd (Measure (elapse_then_raise 102.5%float (BlockError 7)) disk_new)))
  = None.
Proof. split; reflexivity. Qed.

(** C2 as stated fails: after one bracket from 100.0 to 102.5 the scope
    is entered again at 200.0.  The instance is Measuring, and
    GenerateSamples is not empty. *)
Lemma GenerateSamples_nonempty_while_Measuring :
  run disk_reentered_history (fresh "Disk" 100%float)
  = Some (disk_reentered, disk_reentered_usage) /\
  phase disk_reentered_usage = Measuring /\
  fst (GenerateSamples false disk_reentered)
  = Ok [Sample "Disk Runtime" (-97.5)%float "seconds"].
Proof. repeat split. Qed.

(** C3 as stated fails: the instance was measured from 100.0 to 102.5
    and is entered again at 200.0.  A GenerateSamples call inside the
    second block, and one after the second block has raised, both
    report the start of the second bracket with the stop of the
    first. *)
Lemma GenerateSamples_mixes_two_brackets :
  snd (Measure (elapse 102.5%float) disk_new) = disk_measured /\
  self disk_later = self disk_measured /\
  fst (Measure (GenerateSamples false) disk_later)
  = Ok [Sample "Disk Runtime" (-97.5)%float "seconds"] /\
  fst (Measure disk_failing_block disk_later) = Raise (BlockError 7) /\
  fst (GenerateSamples true (snd (Measure disk_failing_block disk_later)))
  = Ok [Sample "Disk Runtime" (-97.5)%float "seconds";
        Sample "Disk Start Timestamp" 200%float "seconds";
        Sample "Disk Stop Timestamp" 102.5%float "seconds"].
Proof. repeat split. Qed.

(** ** A failed bracket after a successful one *)

(** C10: when the block of [with self.Measure():] raises (and leaves
    the instance alone), start_time is the reading taken on entry and
    stop_time keeps the value it had before; if that value was set,
    GenerateSamples returns records computed from the new start_time
    and the old stop_time.  On "Disk", measured from 100.0 to 102.5 and
    entered again at 200.0 with a block that raises, the reported
    elapsed time is -97.5, a negative number. *)
Theorem Measure_raise_keeps_stale_stop_time :
  (forall (num : Type) (T : Timestamp num) (w : World num)
          (A : Type) (block : M A) (e : exception) (w2 : World num),
      block (snd (Measure_enter w)) = (Raise e, w2) ->
      self w2 = self (snd (Measure_enter w)) ->
      fst (Measure block w) = Raise e /\
      start_time (self (snd (Measure block w))) = Some (now w) /\
      stop_time (self (snd (Measure block w))) = stop_time (self w) /\
      forall (old_stop : num) (b : bool),
        stop_time (self w) = Some old_stop ->
        fst (GenerateSamples b (snd (Measure block w)))
        = Ok (Sample (name (self w) ++ " Runtime")
                     (t_sub old_stop (now w)) "seconds"
              :: if b
                 then [Sample (name (self w) ++ " Start Timestamp")
                              (now w) "seconds";
                       Sample (name (self w) ++ " Stop Timestamp")
                              old_stop "seconds"]
                 else [])) /\
  (snd (Measure (elapse 102.5%float) disk_new) = disk_measured /\
   self disk_later = self disk_measured /\
   fst (Measure disk_failing_block disk_later) = Raise (BlockError 7) /\
   exists v : float,
     fst (GenerateSamples false (snd (Measure disk_failing_block disk_later)))
     = Ok [Sample "Disk Runtime" v "seconds"] /\
     PrimFloat.ltb v 0%float = true).
Proof.
  split.
  - intros num T w A block e w2 Hblock Hframe.
    exact (@Measure_raise_stale num T w A block e w2 Hblock Hframe).
  - do 3 (split; [reflexivity|]).
    exists (-97.5)%float. split; reflexivity.
Qed.

(** * The theorems at work on "Disk" *)

(** One bracket from 100.0 to 102.5: a single record, 2.5 seconds. *)
Lemma Measure_then_runtime_sample_disk :
  fst (GenerateSamples false (snd (Measure (elapse 102.5%float) disk_new)))
  = Ok [Sample "Disk Runtime" 2.5%float "seconds"].
Proof.
  destruct (@Measure_then_runtime_sample float float_Timestamp disk_new unit
              (elapse 102.5%float) tt
              {| now := 102.5%float; self := self (snd (Measure_enter disk_new)) |}
              eq_refl eq_refl eq_refl)
    as (_ & start & stop & _ & _ & Hstart & Hstop & _ & Hgen).
  rewrite Hstart, Hstop in Hgen. exact Hgen.
Defined.

(** The same bracket with timestamps: three records in order. *)
Lemma Measure_then_three_samples_disk :
  exists start stop : float,
    start_time (self (snd (Measure (elapse 102.5%float) disk_new))) = Some start /\
    stop_time (self (snd (Measure (elapse 102.5%float) disk_new))) = Some stop /\
    fst (GenerateSamples true (snd (Measure (elapse 102.5%float) disk_new)))
    = Ok [Sample "Disk Runtime" (t_sub stop start) "seconds";
          Sample "Disk Start Timestamp" start "seconds";
          Sample "Disk Stop Timestamp" stop "seconds"].
Proof.
  exact (proj2 (@Measure_then_three_samples float float_Timestamp disk_new unit
                  (elapse 102.5%float) tt
                  {| now := 102.5%float; self := self (snd (Measure_enter disk_new)) |}
                  eq_refl eq_refl)).
Defined.

(** Entered again at 200.0 with a block that raises at 205.0: the
    exception comes out, stop_time is still 102.5. *)
Lemma Measure_raise_propagates_without_stop_disk :
  Measure disk_failing_block disk_later
  = (Raise (BlockError 7),
     {| now := 205%float; self := self (snd (Measure_enter disk_later)) |}) /\
  start_time (self (snd (Measure disk_failing_block disk_later))) = Some 200%float /\
  stop_time (self (snd (Measure disk_failing_block disk_later))) = Some 102.5%float.
Proof.
  destruct (@Measure_raise_propagates_without_stop float disk_later unit
              disk_failing_block (BlockError 7)
              {| now := 205%float; self := self (snd (Measure_enter disk_later)) |}
              eq_refl)
    as (Hwith & Hfields).
  split; [exact Hwith|]. exact (Hfields eq_refl).
Defined.

(** Entered again at 200.0 with a block that ends at 205.0: both
    timestamps and all three records are those of the second bracket. *)
Lemma Measure_again_overwrites_both_disk :
  start_time (self (snd (Measure (elapse 205%float) disk_later))) = Some 200%float /\
  stop_time (self (snd (Measure (elapse 205%float) disk_later))) = Some 205%float /\
  fst (GenerateSamples true (snd (Measure (elapse 205%float) disk_later)))
  = Ok [Sample "Disk Runtime" 5%float "seconds";
        Sample "Disk Start Timestamp" 200%float "seconds";
        Sample "Disk Stop Timestamp" 205%float "seconds"].
Proof.
  destruct (@Measure_again_overwrites_both float float_Timestamp disk_new unit unit
              (elapse 102.5%float) (elapse 205%float) tt tt
              {| now := 102.5%float; self := self (snd (Measure_enter disk_new)) |}
              disk_later
              {| now := 205%float; self := self (snd (Measure_enter disk_later)) |}
              true eq_refl eq_refl eq_refl eq_refl)
    as (_ & Hstart & Hstop & Hgen).
  split; [exact Hstart|]. split; [exact Hstop|]. exact Hgen.
Defined.

(** The invariant in the state reached by [disk_reentered_history]. *)
Lemma stop_time_set_iff_completed_disk :
  (stop_time (self disk_reentered) <> None <-> 0 < completed disk_reentered_usage) /\
  (stop_time (self disk_reentered) <> None -> start_time (self disk_reentered) <> None).
Proof.
  exact (@stop_time_set_iff_completed float float_Timestamp "Disk" 100%float
           disk_reentered_history disk_reentered disk_reentered_usage eq_refl).
Defined.

(** In the same state one scope has ended normally, so the list is not
    empty. *)
Lemma GenerateSamples_empty_iff_none_completed_disk :
  (fst (GenerateSamples false disk_reentered) = Ok [] <->
   completed disk_reentered_usage = 0) /\
  ((exists s l, fst (GenerateSamples false disk_reentered) = Ok (s :: l)) <->
   0 < completed disk_reentered_usage).
Proof.
  destruct (@GenerateSamples_empty_iff_none_completed float float_Timestamp "Disk" 100%float
              disk_reentered_history disk_reentered disk_reentered_usage false
              eq_refl)
    as (Hempty & Hfull & _).
  split; [exact Hempty | exact Hfull].
Defined.

(** In the same state [GenerateSamples] returns a list. *)
Lemma GenerateSamples_never_raises_disk :
  exists l, GenerateSamples true disk_reentered = (Ok l, disk_reentered).
Proof.
  exact (proj2 (@GenerateSamples_never_raises float float_Timestamp disk_reentered true)
           "Disk" 100%float disk_reentered_history disk_reentered_usage eq_refl).
Defined.

(** The record reported after the failed second bracket. *)
Lemma Measure_raise_keeps_stale_stop_time_disk :
  fst (GenerateSamples false (snd (Measure disk_failing_block disk_later)))
  = Ok [Sample "Disk Runtime" (-97.5)%float "seconds"].
Proof.
  destruct (proj1 Measure_raise_keeps_stale_stop_time float float_Timestamp disk_later unit
              disk_failing_block (BlockError 7)
              {| now := 205%float; self := self (snd (Measure_enter disk_later)) |}
              eq_refl eq_refl)
    as (_ & _ & _ & Hgen).
  exact (Hgen 102.5%float false eq_refl).
Defined.

(** * Further properties of the code *)

Section Further.

Context {num : Type} {T : Timestamp num}.

Local Notation "x <- c ;; k" := (bind c (fun x => k))
  (at level 61, c at next level, right associativity).
Local Notation "c ;; k" := (bind c (fun _ => k))
  (at level 61, right associativity).

Implicit Types (w : World num) (b : bool) (e : exception).

(** The three ways [GenerateSamples] can go, by the two fields it
    reads. *)
Lemma GenerateSamples_cases w b :
  (_stop_time (self w) = None /\ GenerateSamples b w = (Ok [], w)) \/
  (exists stop, _stop_time (self w) = Some stop /\
                _start_time (self w) = None /\
                GenerateSamples b w = (Raise TypeError, w)) \/
  (exists start stop,
      _start_time (self w) = Some start /\
      _stop_time (self w) = Some stop /\
      GenerateSamples b w
      = (Ok (Sample (_name (self w) ++ " Runtime") (t_sub stop start) "seconds"
             :: if b
                then [Sample (_name (self w) ++ " Start Timestamp") start "seconds";
                      Sample (_name (self w) ++ " Stop Timestamp") stop "seconds"]
                else []),
         w)).
Proof.
  destruct (_stop_time (self w)) as [stop|] eqn:Estop.
  - destruct (_start_time (self w)) as [start|] eqn:Estart.
    + right; right. exists start, stop.
      do 2 (split; [reflexivity|]).
      apply GenerateSamples_set; assumption.
    + right; left. exists stop.
      do 2 (split; [reflexivity|]).
      eapply GenerateSamples_no_start; eassumption.
  - left. split; [reflexivity|].
    apply GenerateSamples_unset; assumption.
Qed.

(** X1: whatever [GenerateSamples] returns has 0, 1 or 3 records, never
    2: none when stop_time is unset, else one without timestamps and
    three with them; every record has unit "seconds" and a label that
    starts with the instance's name. *)
Theorem GenerateSamples_shape w b (l : list (sample num)) :
  fst (GenerateSamples b w) = Ok l ->
  length l
  = match stop_time (self w) with
    | None => 0
    | Some _ => if b then 3 else 1
    end /\
  Forall (fun s => s_unit s = "seconds" /\
                   exists suffix : string,
                     s_label s = (name (self w) ++ suffix)%string) l.
Proof.
  intros Hgen. unfold stop_time, name.
  destruct (GenerateSamples_cases w b)
    as [(Estop & Hcase) | [(stop & Estop & _ & Hcase)
                          | (start & stop & _ & Estop & Hcase)]];
    rewrite Hcase in Hgen; cbn [fst] in Hgen; rewrite Estop.
  - injection Hgen as <-. split; [reflexivity | constructor].
  - discriminate.
  - injection Hgen as <-. destruct b; (split; [reflexivity|]);
      repeat (constructor; [split; [reflexivity | eexists; reflexivity]|]);
      constructor.
Qed.

(** X2: the flag only adds records at the end.  In every state, what
    GenerateSamples(False) returns is the first record of what
    GenerateSamples(True) returns (nothing when that is empty), and
    the one raises exactly when the other does. *)
Theorem GenerateSamples_flag_extends w :
  match fst (GenerateSamples true w) with
  | Ok l3 => fst (GenerateSamples false w) = Ok (firstn 1 l3)
  | Raise e => fst (GenerateSamples false w) = Raise e
  end.
Proof.
  destruct (GenerateSamples_cases w true)
    as [(Estop & Htrue) | [(stop & Estop & Estart & Htrue)
                          | (start & stop & Estart & Estop & Htrue)]];
    rewrite Htrue; cbn [fst].
  - rewrite (GenerateSamples_unset _ _ Estop). reflexivity.
  - rewrite (GenerateSamples_no_start _ _ Estart Estop). reflexivity.
  - rewrite (GenerateSamples_set _ _ Estart Estop). reflexivity.
Qed.

(** X3: GenerateSamples raises exactly when stop_time is set while
    start_time is unset (the subtraction meets None), and what it
    raises is TypeError. *)
Theorem GenerateSamples_raises_iff w b e :
  fst (GenerateSamples b w) = Raise e <->
  e = TypeError /\ start_time (self w) = None /\ stop_time (self w) <> None.
Proof.
  unfold start_time, stop_time.
  destruct (GenerateSamples_cases w b)
    as [(Estop & Hcase) | [(stop & Estop & Estart & Hcase)
                          | (start & stop & Estart & Estop & Hcase)]];
    rewrite Hcase; cbn [fst]; split.
  - discriminate.
  - intros (_ & _ & Hset). contradiction.
  - intros Hraise. injection Hraise as <-.
    split; [reflexivity|]. split; [exact Estart | congruence].
  - intros (-> & _ & _). reflexivity.
  - discriminate.
  - intros (_ & Hnone & _). congruence.
Qed.

(** X4: the records give the timestamps back.  When
    GenerateSamples(True) returns a non-empty list, it is three
    records whose second and third values are start_time and
    stop_time, and the first value is the third minus the second. *)
Theorem GenerateSamples_timestamps_back w (l : list (sample num)) :
  fst (GenerateSamples true w) = Ok l ->
  l <> [] ->
  exists runtime start stop,
    l = [runtime; start; stop] /\
    start_time (self w) = Some (s_value start) /\
    stop_time (self w) = Some (s_value stop) /\
    s_value runtime = t_sub (s_value stop) (s_value start).
Proof.
  intros Hgen Hne. unfold start_time, stop_time.
  destruct (GenerateSamples_cases w true)
    as [(_ & Hcase) | [(stop & _ & _ & Hcase)
                      | (start & stop & Estart & Estop & Hcase)]];
    rewrite Hcase in Hgen; cbn [fst] in Hgen.
  - injection Hgen as <-. contradiction.
  - discriminate.
  - injection Hgen as <-.
    do 3 eexists. split; [reflexivity|]. cbn [s_value].
    split; [exact Estart|]. split; [exact Estop | reflexivity].
Qed.


(** X6: a first bracket that fails yields no samples.  On an instance
    whose stop_time is unset, after a block that raises (and leaves the
    instance alone) GenerateSamples returns the empty list for either
    flag, although start_time is now set. *)
Theorem Measure_raise_first_no_samples w (A : Type) (block : M A) e w2 b :
  stop_time (self w) = None ->
  block (snd (Measure_enter w)) = (Raise e, w2) ->
  self w2 = self (snd (Measure_enter w)) ->
  start_time (self (snd (Measure block w))) = Some (now w) /\
  GenerateSamples b (snd (Measure block w))
  = (Ok [], snd (Measure block w)).
Proof.
  intros Hunset Hblock Hframe.
  rewrite (Measure_block_raise _ _ Hblock). cbn [snd].
  unfold start_time. rewrite Hframe, Measure_enter_eq.
  split; [reflexivity|].
  apply GenerateSamples_unset. rewrite Hframe. exact Hunset.
Qed.

(** X7: brackets nested on one instance.  With
    [with self.Measure(): pre; with self.Measure(): inner; post]
    (all three ending normally and leaving the instance alone),
    start_time is the reading on entering the inner bracket and
    stop_time the reading on leaving the outer one: the outer start
    is lost, and the reported runtime is that of neither bracket. *)
Theorem Measure_nested_inner_start_outer_stop
    w (A B C : Type) (pre : M A) (inner : M B) (post : M C)
    (x : A) (y : B) (z : C) w1 w2 w3 :
  pre (snd (Measure_enter w)) = (Ok x, w1) ->
  self w1 = self (snd (Measure_enter w)) ->
  inner (snd (Measure_enter w1)) = (Ok y, w2) ->
  self w2 = self (snd (Measure_enter w1)) ->
  post (snd (Measure_exit w2)) = (Ok z, w3) ->
  self w3 = self (snd (Measure_exit w2)) ->
  fst (Measure (pre ;; Measure inner ;; post) w) = Ok z /\
  start_time (self (snd (Measure (pre ;; Measure inner ;; post) w)))
  = Some (now w1) /\
  stop_time (self (snd (Measure (pre ;; Measure inner ;; post) w)))
  = Some (now w3) /\
  fst (GenerateSamples false (snd (Measure (pre ;; Measure inner ;; post) w)))
  = Ok [Sample (name (self w) ++ " Runtime") (t_sub (now w3) (now w1)) "seconds"].
Proof.
  intros Hpre Fpre Hinner Finner Hpost Fpost.
  assert (Hbody : (pre ;; Measure inner ;; post) (snd (Measure_enter w))
                  = (Ok z, w3)).
  { unfold bind at 1. rewrite Hpre.
    unfold bind. rewrite (Measure_block_ok _ _ Hinner), Hpost. reflexivity. }
  rewrite (Measure_block_ok _ _ Hbody), Measure_exit_eq. cbn [fst snd].
  unfold start_time, stop_time, name. cbn [self _start_time _stop_time].
  rewrite Fpost, Measure_exit_eq. cbn [snd self _start_time _name].
  rewrite Finner, Measure_enter_eq. cbn [snd self _start_time _name].
  do 3 (split; [reflexivity|]).
  erewrite GenerateSamples_set; cbn [fst self _name _start_time _stop_time].
  - rewrite Fpre. reflexivity.
  - reflexivity.
  - reflexivity.
Qed.

(** ** More on histories *)

Lemma step_name (c c' : World num * Usage) (ev : event num) :
  step c ev = Some c' -> _name (self (fst c')) = _name (self (fst c)).
Proof.
  destruct c as [w u]. intros Hstep.
  destruct ev as [t| | |e|b]; cbn [step] in Hstep;
    try (destruct (open_scopes u); [discriminate|]);
    injection Hstep as <-; cbn [fst]; try reflexivity.
  rewrite GenerateSamples_world. reflexivity.
Qed.

(** X8: the name never changes.  After every sequence of operations
    the name accessor still returns the name given to the
    constructor, so every label is prefixed by it. *)
Theorem name_is_constructor_name
    (n : string) (t0 : num) (tr : list (event num)) w (u : Usage) :
  run tr (fresh n t0) = Some (w, u) ->
  name (self w) = n.
Proof.
  unfold name.
  change n with (_name (self (fst (fresh n t0)))) at 2.
  generalize (fresh n t0) as c. revert w u.
  induction tr as [|ev tr IH]; intros w u c Hrun; cbn [run] in Hrun.
  - injection Hrun as ->. reflexivity.
  - destruct (step c ev) as [c1|] eqn:Hstep; [|discriminate].
    rewrite (IH _ _ _ Hrun). exact (step_name _ _ Hstep).
Qed.

Lemma step_start_time (c c' : World num * Usage) (ev : event num) :
  step c ev = Some c' ->
  (_start_time (self (fst c')) <> None <->
   _start_time (self (fst c)) <> None \/ ev = Enter).
Proof.
  destruct c as [w u]. intros Hstep.
  destruct ev as [t| | |e|b]; cbn [step] in Hstep;
    try (destruct (open_scopes u); [discriminate|]);
    injection Hstep as <-; cbn [fst].
  - cbn. split; [auto | intros [H|H]; [exact H | discriminate]].
  - cbn. split; [auto | intros _; discriminate].
  - cbn. split; [auto | intros [H|H]; [exact H | discriminate]].
  - cbn. split; [auto | intros [H|H]; [exact H | discriminate]].
  - rewrite GenerateSamples_world.
    split; [auto | intros [H|H]; [exact H | discriminate]].
Qed.

Lemma run_start_time (tr : list (event num)) :
  forall c c' : World num * Usage,
    run tr c = Some c' ->
    (_start_time (self (fst c')) <> None <->
     _start_time (self (fst c)) <> None \/ In Enter tr).
Proof.
  induction tr as [|ev tr IH]; intros c c' Hrun; cbn [run] in Hrun.
  - injection Hrun as <-. cbn [In]. tauto.
  - destruct (step c ev) as [c1|] eqn:Hstep; [|discriminate].
    rewrite (IH _ _ Hrun), (step_start_time _ _ Hstep). cbn [In].
    split; [intros [[H|H]|H] | intros [H|[H|H]]]; subst; auto.
Qed.

(** X9: start_time is None exactly when Measure was never entered;
    and as long as it was never entered, stop_time is None and
    GenerateSamples returns the empty list. *)
Theorem start_time_set_iff_entered
    (n : string) (t0 : num) (tr : list (event num)) w (u : Usage) b :
  run tr (fresh n t0) = Some (w, u) ->
  (start_time (self w) <> None <-> In Enter tr) /\
  (~ In Enter tr ->
   stop_time (self w) = None /\ fst (GenerateSamples b w) = Ok []).
Proof.
  intros Hrun. unfold start_time, stop_time.
  pose proof (run_start_time _ _ Hrun) as Hstart. cbn in Hstart.
  assert (Hiff : _start_time (self w) <> None <-> In Enter tr).
  { rewrite Hstart. split; [intros [H|H]; [contradiction | exact H] | auto]. }
  split; [exact Hiff|]. intros Hnever.
  destruct (usage_inv_reachable _ _ _ Hrun) as (Hstop & Hs & _ & _).
  assert (Hunset : _stop_time (self w) = None).
  { destruct (_stop_time (self w)) eqn:E; [|reflexivity].
    exfalso. apply Hnever, Hiff, Hs. right. apply Hstop. discriminate. }
  split; [exact Hunset|].
  rewrite (GenerateSamples_unset _ _ Hunset). reflexivity.
Qed.

End Further.

(** ** A clock that does not go back *)

Section MonotoneClock.

Context {num : Type} {T : Timestamp num}.

Hypothesis t_le_refl : forall a : num, t_le a a.
Hypothesis t_le_trans : forall a b c : num, t_le a b -> t_le b c -> t_le a c.

Lemma clock_inv_fresh (n : string) (t0 : num) : clock_inv (fresh n t0).
Proof.
  unfold clock_inv, fresh, __init__. cbn.
  split; [discriminate|]. split; discriminate.
Qed.

Lemma clock_inv_step (w : World num) (u : Usage) (ev : event num)
    (c' : World num * Usage) :
  clock_inv (w, u) ->
  clock_monotone (now w) [ev] ->
  step (w, u) ev = Some c' ->
  clock_inv c'.
Proof.
  intros (Hstart & Hstop & Hboth) Hmono Hstep.
  destruct ev as [t| | |e|b]; cbn [step] in Hstep.
  - (* Elapse *)
    injection Hstep as <-. destruct Hmono as [Hle _]. cbn.
    split; [|split]; eauto.
  - (* Enter *)
    injection Hstep as <-. cbn.
    split; [|split]; [ | exact Hstop | discriminate].
    intros s [= <-]. apply t_le_refl.
  - (* ExitNormal *)
    destruct (open_scopes u) as [|k]; [discriminate|].
    injection Hstep as <-. cbn.
    split; [exact Hstart|]. split.
    + intros p [= <-]. apply t_le_refl.
    + intros _ s p Hs [= <-]. apply Hstart, Hs.
  - (* ExitRaise *)
    destruct (open_scopes u) as [|k]; [discriminate|].
    injection Hstep as <-. cbn.
    split; [exact Hstart|]. split; [exact Hstop|].
    unfold phase. cbn. destruct k; [|discriminate].
    destruct (completed u); discriminate.
  - (* Generate *)
    injection Hstep as <-. rewrite GenerateSamples_world.
    split; [exact Hstart|]. split; [exact Hstop | exact Hboth].
Qed.

Lemma clock_monotone_cons (cur : num) (ev : event num) (tr : list (event num))
    (w : World num) (u : Usage) (c' : World num * Usage) :
  clock_monotone cur (ev :: tr) ->
  cur = now w ->
  step (w, u) ev = Some c' ->
  clock_monotone cur [ev] /\ clock_monotone (now (fst c')) tr.
Proof.
  intros Hmono -> Hstep.
  destruct ev as [t| | |e|b]; cbn [step] in Hstep; cbn in Hmono |- *;
    try (destruct (open_scopes u); [discriminate|]);
    injection Hstep as <-; cbn [fst]; try tauto.
  rewrite GenerateSamples_world. tauto.
Qed.

Lemma clock_inv_run (tr : list (event num)) :
  forall c c' : World num * Usage,
    clock_inv c ->
    clock_monotone (now (fst c)) tr ->
    run tr c = Some c' ->
    clock_inv c'.
Proof.
  induction tr as [|ev tr IH]; intros [w u] c' Hinv Hmono Hrun;
    cbn [run] in Hrun.
  - injection Hrun as <-. exact Hinv.
  - destruct (step (w, u) ev) as [c1|] eqn:Hstep; [|discriminate].
    assert (Hsplit : clock_monotone (now w) [ev] /\
                     clock_monotone (now (fst c1)) tr)
      by (eapply clock_monotone_cons; [exact Hmono | reflexivity | exact Hstep]).
    destruct Hsplit as [Hone Hrest].
    apply (IH c1 c'); [|exact Hrest|exact Hrun].
    eapply clock_inv_step; [exact Hinv | exact Hone | exact Hstep].
Qed.

(** X10: under a clock that never goes back (its order being reflexive
    and transitive), after every sequence of operations, nested
    scopes included, no timestamp is later than what the clock reads;
    and whenever the instance is Measured both timestamps are set with
    start_time <= stop_time. *)
Theorem Measured_start_le_stop
    (n : string) (t0 : num) (tr : list (event num))
    (w : World num) (u : Usage) :
  run tr (fresh n t0) = Some (w, u) ->
  clock_monotone t0 tr ->
  (forall s, start_time (self w) = Some s -> t_le s (now w)) /\
  (forall p, stop_time (self w) = Some p -> t_le p (now w)) /\
  (phase u = Measured ->
   exists s p,
     start_time (self w) = Some s /\ stop_time (self w) = Some p /\
     t_le s p).
Proof.
  intros Hrun Hmono. unfold start_time, stop_time.
  assert (Hclock : clock_inv (w, u))
    by (eapply clock_inv_run; [apply clock_inv_fresh | exact Hmono | exact Hrun]).
  destruct Hclock as (Hstart & Hstop & Hboth).
  split; [exact Hstart|]. split; [exact Hstop|].
  intros Hphase.
  destruct (usage_inv_reachable _ _ _ Hrun) as (Hset & Hs & Hlast & _).
  assert (Hdone : 0 < completed u).
  { apply Hlast. unfold phase in Hphase.
    destruct (open_scopes u); [|discriminate].
    destruct (last_exit u) as [[|]|]; [reflexivity| |discriminate].
    destruct (completed u); discriminate. }
  destruct (_start_time (self w)) as [s|] eqn:Es;
    [|exfalso; apply Hs; [right; exact Hdone | reflexivity]].
  destruct (_stop_time (self w)) as [p|] eqn:Ep;
    [|exfalso; apply (proj2 Hset Hdone); reflexivity].
  exists s, p. auto.
Qed.

End MonotoneClock.

(** * The further properties at work *)

(** The three records of "Disk", measured from 100.0 to 102.5. *)
Lemma GenerateSamples_shape_disk :
  length [Sample "Disk Runtime" 2.5%float "seconds";
          Sample "Disk Start Timestamp" 100%float "seconds";
          Sample "Disk Stop Timestamp" 102.5%float "seconds"] = 3 /\
  Forall (fun s => s_unit s = "seconds" /\
                   exists suffix : string, s_label s = ("Disk" ++ suffix)%string)
         [Sample "Disk Runtime" 2.5%float "seconds";
          Sample "Disk Start Timestamp" 100%float "seconds";
          Sample "Disk Stop Timestamp" 102.5%float "seconds"].
Proof.
  exact (@GenerateSamples_shape float float_Timestamp disk_measured true _ eq_refl).
Defined.

(** A stop without a start: TypeError. *)
Lemma GenerateSamples_raises_iff_disk :
  fst (GenerateSamples true disk_stop_without_start) = Raise TypeError.
Proof.
  apply (proj2 (@GenerateSamples_raises_iff float float_Timestamp
                  disk_stop_without_start true TypeError)).
  split; [reflexivity|]. split; [reflexivity | discriminate].
Defined.

(** From the three records of "Disk" back to 100.0 and 102.5. *)
Lemma GenerateSamples_timestamps_back_disk :
  exists runtime start stop : sample float,
    [Sample "Disk Runtime" 2.5%float "seconds";
     Sample "Disk Start Timestamp" 100%float "seconds";
     Sample "Disk Stop Timestamp" 102.5%float "seconds"]
    = [runtime; start; stop] /\
    start_time (self disk_measured) = Some (s_value start) /\
    stop_time (self disk_measured) = Some (s_value stop) /\
    s_value runtime = t_sub (s_value stop) (s_value start).
Proof.
  apply (@GenerateSamples_timestamps_back float float_Timestamp disk_measured).
  - reflexivity.
  - discriminate.
Defined.

(** A new instance whose first block raises at 102.5. *)
Lemma Measure_raise_first_no_samples_disk :
  start_time
    (self (snd (Measure (elapse_then_raise 102.5%float (BlockError 7)) disk_new)))
  = Some 100%float /\
  GenerateSamples true
    (snd (Measure (elapse_then_raise 102.5%float (BlockError 7)) disk_new))
  = (Ok [], snd (Measure (elapse_then_raise 102.5%float (BlockError 7)) disk_new)).
Proof.
  apply (@Measure_raise_first_no_samples float float_Timestamp disk_new unit
           (elapse_then_raise 102.5%float (BlockError 7)) (BlockError 7)
           {| now := 102.5%float; self := self (snd (Measure_enter disk_new)) |}
           true);
    reflexivity.
Defined.

(** Outer bracket entered at 100.0, inner one from 101.0 to 102.0,
    outer one left at 103.0: the record says 2.0 seconds. *)
Lemma Measure_nested_disk :
  fst (GenerateSamples false
         (snd (Measure (bind (elapse 101%float)
                          (fun _ => bind (Measure (elapse 102%float))
                                      (fun _ => elapse 103%float)))
                 disk_new)))
  = Ok [Sample "Disk Runtime" 2%float "seconds"].
Proof.
  destruct (@Measure_nested_inner_start_outer_stop float float_Timestamp
              disk_new unit unit unit
              (elapse 101%float) (elapse 102%float) (elapse 103%float)
              tt tt tt
              {| now := 101%float; self := self (snd (Measure_enter disk_new)) |}
              {| now := 102%float;
                 self := {| _name := "Disk";
                            _start_time := Some 101%float;
                            _stop_time := None |} |}
              {| now := 103%float;
                 self := {| _name := "Disk";
                            _start_time := Some 101%float;
                            _stop_time := Some 102%float |} |}
              eq_refl eq_refl eq_refl eq_refl eq_refl eq_refl)
    as (_ & _ & _ & Hgen).
  exact Hgen.
Defined.

(** After [disk_reentered_history] the name is still "Disk". *)
Lemma name_is_constructor_name_disk :
  name (self disk_reentered) = "Disk".
Proof.
  exact (@name_is_constructor_name float float_Timestamp "Disk" 100%float
           disk_reentered_history disk_reentered disk_reentered_usage eq_refl).
Defined.

(** [disk_reentered_history] enters the scope, so start_time is set. *)
Lemma start_time_set_iff_entered_disk :
  start_time (self disk_reentered) <> None <-> In Enter disk_reentered_history.
Proof.
  exact (proj1 (@start_time_set_iff_entered float float_Timestamp "Disk" 100%float
                  disk_reentered_history disk_reentered disk_reentered_usage
                  false eq_refl)).
Defined.

(** On the clock of whole seconds: entered at 3, left at 5. *)
Lemma Measured_start_le_stop_whole_seconds :
  exists s p : Z,
    start_time
      (self {| now := 5%Z;
               self := {| _name := "Disk";
                          _start_time := Some 3%Z;
                          _stop_time := Some 5%Z |} |}) = Some s /\
    stop_time
      (self {| now := 5%Z;
               self := {| _name := "Disk";
                          _start_time := Some 3%Z;
                          _stop_time := Some 5%Z |} |}) = Some p /\
    (s <= p)%Z.
Proof.
  assert (Hmono : @clock_monotone Z Z_Timestamp 3%Z disk_whole_seconds_history).
  { cbn. split; [lia | exact I]. }
  refine (proj2 (proj2
           (@Measured_start_le_stop Z Z_Timestamp Z.le_refl Z.le_trans
              "Disk" 3%Z disk_whole_seconds_history
              {| now := 5%Z;
                 self := {| _name := "Disk";
                            _start_time := Some 3%Z;
                            _stop_time := Some 5%Z |} |}
              {| open_scopes := 0; completed := 1; last_exit := Some true |}
              eq_refl Hmono)) eq_refl).
Defined.
